(** * Chat-App: relay server (src/server/server.js) and client session
      (src/client/src/App.jsx), shallow embedding. *)

From Stdlib Require Import String List Bool Arith QArith Lia.
Import ListNotations.
Open Scope string_scope.
Open Scope list_scope.
#[local] Set Warnings "-register-all".

(* ------------------------------------------------------------------------- *)
(** ** JavaScript values as produced by [JSON.parse] and read by property access *)

(** A JS value. [JSON.parse] only yields [VNull], [VBool], [VNum], [VInf],
    [VStr], [VArr], [VObj]; [VUndef] is what a property read of a missing key
    gives.  A parsed number is a double: [VNum q] a finite one (its exact
    rational value; -0 is 0), [VInf neg] the +/-Infinity that an overflowing
    literal such as 1e400 parses to (JSON never yields NaN).  Objects are
    association lists in property order (JSON.parse keeps the last of
    duplicate keys, so parsed objects have distinct keys). *)
Inductive value : Type :=
| VUndef : value
| VNull : value
| VBool : bool -> value
| VNum : Q -> value
| VInf : bool -> value
| VStr : string -> value
| VArr : list value -> value
| VObj : list (string * value) -> value.

(** Own property lookup in an object's property list. *)
Fixpoint lookup (k : string) (ps : list (string * value)) : option value :=
  match ps with
  | [] => None
  | (k', v) :: ps' => if String.eqb k k' then Some v else lookup k ps'
  end.

(** [o.k] : [None] models the TypeError thrown when reading a property of
    [null] or [undefined]; a missing property reads as [undefined].  The
    keys read by the code ([type], [user], [message], [timestamp],
    [username]) are not properties of primitives or arrays. *)
Definition get (o : value) (k : string) : option value :=
  match o with
  | VUndef | VNull => None
  | VObj ps => Some (match lookup k ps with Some v => v | None => VUndef end)
  | _ => Some VUndef
  end.

(** Assignment of an own property: overwrite in place, else append. *)
Fixpoint set_prop (k : string) (v : value) (ps : list (string * value))
  : list (string * value) :=
  match ps with
  | [] => [(k, v)]
  | (k', v') :: ps' =>
      if String.eqb k k' then (k', v) :: ps' else (k', v') :: set_prop k v ps'
  end.

(** JS truthiness ([if (x)] / [a && b]).  Parsed numbers are never NaN. *)
Definition truthy (v : value) : bool :=
  match v with
  | VUndef | VNull => false
  | VBool b => b
  | VNum q => negb (Qeq_bool q 0)
  | VInf _ => true
  | VStr s => negb (String.eqb s "")
  | VArr _ | VObj _ => true
  end.

(** [v === s] for a string [s]. *)
Definition strict_eq_str (v : value) (s : string) : bool :=
  match v with
  | VStr s' => String.eqb s' s
  | _ => false
  end.

(** What a receiver gets from [JSON.parse(JSON.stringify(v))]: +/-Infinity
    becomes [null], an [undefined] array element becomes [null] and an
    [undefined] property is left out. *)
Fixpoint wire (v : value) : value :=
  match v with
  | VInf _ => VNull
  | VArr l =>
      VArr (map (fun x => match x with VUndef => VNull | _ => wire x end) l)
  | VObj ps =>
      VObj ((fix wire_fields (ps : list (string * value)) :=
               match ps with
               | [] => []
               | (k, VUndef) :: ps' => wire_fields ps'
               | (k, x) :: ps' => (k, wire x) :: wire_fields ps'
               end) ps)
  | _ => v
  end.

(** The [readyState] of a WebSocket. *)
Inductive ReadyState : Type := CONNECTING | OPEN | CLOSING | CLOSED.

Definition ready_eqb (a b : ReadyState) : bool :=
  match a, b with
  | CONNECTING, CONNECTING | OPEN, OPEN | CLOSING, CLOSING | CLOSED, CLOSED => true
  | _, _ => false
  end.

(* ------------------------------------------------------------------------- *)
(** ** Relay server (src/server/server.js) *)

Module Server.

(** A connection is an opaque handle. *)
Definition conn := nat.

(** An outbound [client.send(JSON.stringify(v))]: the target and the value [v]
    handed to [JSON.stringify]; the receiver parses [wire v]. *)
Definition send := (conn * value)%type.

(** [const clients = new Set()]: a list with no duplicates. *)
Definition registry := list conn.

(** [clients.add(ws)] *)
Definition set_add (c : conn) (r : registry) : registry :=
  if existsb (Nat.eqb c) r then r else r ++ [c].

(** [clients.delete(ws)] *)
Definition set_delete (c : conn) (r : registry) : registry :=
  filter (fun c' => negb (Nat.eqb c c')) r.

(** [messageData.timestamp = new Date().toISOString()] (lines 53-57).
    [None]: the TypeError thrown when [messageData] is [null].  On an array
    the property is set but [JSON.stringify] does not emit it; on other
    primitives the sloppy-mode assignment is ignored. *)
Definition stamp (now : string) (md : value) : option value :=
  match md with
  | VNull | VUndef => None
  | VObj ps => Some (VObj (set_prop "timestamp" (VStr now) ps))
  | _ => Some md
  end.

Section Relay.

(** The transport's [readyState] of every connection. *)
Variable ready : conn -> ReadyState.

(** [ws.on('message', data => ...)] (lines 46-83).  [data] is the result of
    [JSON.parse(data)], [None] when it throws.  Every exception is caught
    (lines 79-82) and yields no send. *)
Definition on_message (clients : registry) (now : string) (data : option value)
  : list send :=
  match data with
  | None => []
  | Some md =>
      match stamp now md with
      | None => []
      | Some md' =>
          map (fun c => (c, md'))
              (filter (fun c => ready_eqb (ready c) OPEN) clients)
      end
  end.

(** The welcome message of line 36. *)
Definition welcome (now : string) : value :=
  VObj [("type", VStr "system"); ("message", VStr "Connected to chat server!");
        ("timestamp", VStr now)].

(** Transport events delivered to the server. *)
Inductive event : Type :=
| Accept : conn -> string -> event
| Inbound : conn -> string -> option value -> event
| Close : conn -> event
| Error : conn -> event.

(** One handler run: the new registry and the sends it performs. *)
Definition step (clients : registry) (e : event) : registry * list send :=
  match e with
  | Accept c now => (set_add c clients, [(c, welcome now)])
  | Inbound _ now data => (clients, on_message clients now data)
  | Close c => (set_delete c clients, [])
  | Error c => (set_delete c clients, [])
  end.

(** Running a sequence of events, collecting all sends in order. *)
Fixpoint run (clients : registry) (es : list event) : registry * list send :=
  match es with
  | [] => (clients, [])
  | e :: es' =>
      let (r1, out1) := step clients e in
      let (r2, out2) := run r1 es' in
      (r2, out1 ++ out2)
  end.

End Relay.

(** Events that end the life of [c]. *)
Definition ends (c : conn) (e : event) : Prop := e = Close c \/ e = Error c.

(** [c] was accepted at some point of [es] and no later event ended it. *)
Definition live_in (c : conn) (es : list event) : Prop :=
  exists pre now post,
    es = pre ++ Accept c now :: post /\ forall e, In e post -> ~ ends c e.

End Server.

(* ------------------------------------------------------------------------- *)
(** ** Client session (src/client/src/App.jsx) *)

Module Client.

(** [connectionStatus] (line 31). *)
Inductive Status : Type := Disconnected | Connecting | Connected.

(** The component state.  [messages] holds the display records (JS objects);
    [sock] is [ws.current]: [None] for [null], else the socket's readyState.
    [username] is the Identity; the message handler closes over it, and the
    effect that installs the handler re-runs whenever it changes. *)
Record session : Type := mk_session {
  messages : list value;
  inputMessage : string;
  username : string;
  hasJoined : bool;
  connectionStatus : Status;
  sock : option ReadyState
}.

(** [o.k] on a value known not to be [null]/[undefined]. *)
Definition getv (o : value) (k : string) : value :=
  match get o k with Some v => v | None => VUndef end.

(** [setMessages(prev => [...prev, e])] *)
Definition append (s : session) (e : value) : session :=
  {| messages := messages s ++ [e]; inputMessage := inputMessage s;
     username := username s; hasJoined := hasJoined s;
     connectionStatus := connectionStatus s; sock := sock s |}.

(** The system record of lines 85-91. *)
Definition system_entry (md : value) : value :=
  VObj [("user", VStr "System"); ("message", getv md "message");
        ("timestamp", getv md "timestamp"); ("isMine", VBool false);
        ("isSystem", VBool true)].

(** [{...messageData, isMine}] (lines 103-106). *)
Definition spread_isMine (md : value) (isMine : bool) : value :=
  match md with
  | VObj ps => VObj (set_prop "isMine" (VBool isMine) ps)
  | _ => VObj [("isMine", VBool isMine)]
  end.

(** [ws.current.onmessage] (lines 74-116).  [data] is [JSON.parse(event.data)],
    [None] when it throws; a TypeError reading [.type] of [null] is caught by
    the same [catch]. *)
Definition on_message (s : session) (data : option value) : session :=
  match data with
  | None => s
  | Some md =>
      match get md "type" with
      | None => s
      | Some ty =>
          if strict_eq_str ty "system" then append s (system_entry md)
          else if strict_eq_str ty "register" then s
          else if truthy (getv md "user") && truthy (getv md "message") then
            let isMine := strict_eq_str (getv md "user") (username s) in
            append s (spread_isMine md isMine)
          else s
      end
  end.

(** White space removed by [String.prototype.trim] among the code units a
    Rocq [ascii] can hold: TAB, LF, VT, FF, CR, SPACE and NBSP. *)
Definition is_ws (a : Ascii.ascii) : bool :=
  let n := Ascii.nat_of_ascii a in
  (Nat.eqb n 9 || Nat.eqb n 10 || Nat.eqb n 11 || Nat.eqb n 12 || Nat.eqb n 13
   || Nat.eqb n 32 || Nat.eqb n 160)%bool.

Fixpoint drop_ws (l : list Ascii.ascii) : list Ascii.ascii :=
  match l with
  | [] => []
  | a :: l' => if is_ws a then drop_ws l' else l
  end.

(** [s.trim()] *)
Definition trim (s : string) : string :=
  string_of_list_ascii
    (rev (drop_ws (rev (drop_ws (list_ascii_of_string s))))).

(** [sendMessage] (lines 162-188), with [now] for [new Date().toISOString()].
    Returns the new state and the values passed to [ws.current.send]. *)
Definition sendMessage (s : session) (now : string) : session * list value :=
  if String.eqb (trim (inputMessage s)) "" then (s, [])
  else
    match sock s with
    | Some OPEN =>
        let messageData :=
          VObj [("type", VStr "message"); ("user", VStr (username s));
                ("message", VStr (trim (inputMessage s)));
                ("timestamp", VStr now)] in
        ({| messages := messages s; inputMessage := "";
            username := username s; hasJoined := hasJoined s;
            connectionStatus := connectionStatus s; sock := sock s |},
         [messageData])
    | _ => (s, [])   (* alert('Not connected to server!') *)
    end.

(** [WebSocket.close()]: starts the closing handshake; a no-op on a socket
    that is already closing or closed. *)
Definition ws_close (rs : ReadyState) : ReadyState :=
  match rs with
  | CONNECTING | OPEN => CLOSING
  | CLOSING | CLOSED => rs
  end.

(** [logout] (lines 207-216); the localStorage writes are the excluded
    storage collaborator. *)
Definition logout (s : session) : session :=
  {| messages := []; inputMessage := inputMessage s; username := "";
     hasJoined := false; connectionStatus := connectionStatus s;
     sock := option_map ws_close (sock s) |}.

(** The effect cleanup of lines 142-147, run when [hasJoined]/[username]
    change after an effect run that registered it ([hasJoined] was true). *)
Definition effect_cleanup (s : session) : session :=
  {| messages := messages s; inputMessage := inputMessage s;
     username := username s; hasJoined := hasJoined s;
     connectionStatus := connectionStatus s;
     sock := option_map ws_close (sock s) |}.

(** The end of the closing handshake: the socket becomes CLOSED and its
    [onclose] handler (lines 123-126) sets the status to disconnected. *)
Definition complete_close (s : session) : session :=
  match sock s with
  | Some CLOSING =>
      {| messages := messages s; inputMessage := inputMessage s;
         username := username s; hasJoined := hasJoined s;
         connectionStatus := Disconnected; sock := Some CLOSED |}
  | _ => s
  end.

(** [leave()]: the logout action, the effect cleanup it triggers, and the
    completion of the close it started. *)
Definition leave (s : session) : session :=
  let s1 := logout s in
  let s2 := if hasJoined s then effect_cleanup s1 else s1 in
  complete_close s2.

(** Reachable states: with no live socket ([ws.current] null or closed) the
    status is disconnected (initial state, or set by [onclose]). *)
Definition wf (s : session) : Prop :=
  sock s = None \/ sock s = Some CLOSED -> connectionStatus s = Disconnected.

End Client.

(* ------------------------------------------------------------------------- *)
(** ** The rest of App.jsx and server.js *)

Module ClientMore.
Import Client.

(** [localStorage]: string keys to string values. *)
Definition storage := list (string * string).

Fixpoint getItem (k : string) (st : storage) : option string :=
  match st with
  | [] => None
  | (k', v) :: st' => if String.eqb k k' then Some v else getItem k st'
  end.

Definition removeItem (k : string) (st : storage) : storage :=
  filter (fun kv => negb (String.eqb k (fst kv))) st.

Definition setItem (k v : string) (st : storage) : storage :=
  (k, v) :: removeItem k st.

(** The [useState] initialisers of lines 15-31 (a fresh page load). *)
Definition init (st : storage) : session :=
  {| messages := []; inputMessage := "";
     username := match getItem "chatUsername" st with Some u => u | None => "" end;
     hasJoined := match getItem "chatHasJoined" st with
                  | Some v => String.eqb v "true" | None => false end;
     connectionStatus := Disconnected; sock := None |}.

(** [joinChat] (lines 194-201): the state keeps [username] as typed, the
    storage receives it trimmed. *)
Definition joinChat (s : session) (st : storage) : session * storage :=
  if negb (String.eqb (trim (username s)) "") then
    ({| messages := messages s; inputMessage := inputMessage s;
        username := username s; hasJoined := true;
        connectionStatus := connectionStatus s; sock := sock s |},
     setItem "chatHasJoined" "true" (setItem "chatUsername" (trim (username s)) st))
  else (s, st).

(** The storage writes of [logout] (lines 208-209). *)
Definition logout_storage (st : storage) : storage :=
  removeItem "chatHasJoined" (removeItem "chatUsername" st).

(** The body of the connection effect (lines 51-58): nothing unless joined,
    else status [connecting] and a new socket in state CONNECTING. *)
Definition connect_effect (s : session) : session :=
  if hasJoined s then
    {| messages := messages s; inputMessage := inputMessage s;
       username := username s; hasJoined := hasJoined s;
       connectionStatus := Connecting; sock := Some CONNECTING |}
  else s.

(** The socket opens and [onopen] (lines 64-67) sets the status. *)
Definition on_open (s : session) : session :=
  {| messages := messages s; inputMessage := inputMessage s;
     username := username s; hasJoined := hasJoined s;
     connectionStatus := Connected; sock := Some OPEN |}.

(** The row layout of a message bubble (lines 319-323). *)
Inductive Align : Type := Center | End | Start.

(** Whether React can render [v] as a child: strings, numbers, booleans,
    [null] and [undefined] can, an array when its elements can; a plain
    object makes the render throw ("Objects are not valid as a React
    child"). *)
Fixpoint react_child_ok (v : value) : bool :=
  match v with
  | VObj _ => false
  | VArr l => forallb react_child_ok l
  | _ => true
  end.

(** The bubble of one record (lines 317-350): [None] when rendering it
    throws, else its alignment and whether the sender's name ([msg.user],
    shown when [!msg.isMine]) is rendered.  A system bubble renders
    [msg.message]; a user bubble [msg.user] (when shown) and [msg.message];
    [formatTime] of any parsed value yields a string and does not throw. *)
Definition render_bubble (msg : value) : option (Align * bool) :=
  if truthy (getv msg "isSystem") then
    if react_child_ok (getv msg "message") then Some (Center, false) else None
  else if truthy (getv msg "isMine") then
    if react_child_ok (getv msg "message") then Some (End, false) else None
  else if react_child_ok (getv msg "user") && react_child_ok (getv msg "message")
  then Some (Start, true) else None.

(** A session of Identity "Alice" that has joined, before connecting. *)
Definition alice_joined (input : string) : session :=
  {| messages := []; inputMessage := input; username := "Alice";
     hasJoined := true; connectionStatus := Disconnected; sock := None |}.

(** A string starts / ends with a character [trim] removes. *)
Definition starts_ws (s : string) : bool :=
  match list_ascii_of_string s with a :: _ => is_ws a | [] => false end.

Definition ends_ws (s : string) : bool :=
  match rev (list_ascii_of_string s) with a :: _ => is_ws a | [] => false end.

End ClientMore.

Module ServerMore.
Import Server.

(** The SIGINT handler (lines 116-129) calls [client.close()] on every
    registered connection; each then delivers its [close] event. *)
Definition shutdown_events (clients : registry) : list event := map Close clients.

End ServerMore.

(* ------------------------------------------------------------------------- *)
(** ** Lemmas about the model *)

Lemma lookup_set_prop k v ps : lookup k (set_prop k v ps) = Some v.
Proof.
  induction ps as [| [k' v'] ps IH]; simpl.
  - rewrite String.eqb_refl. reflexivity.
  - destruct (String.eqb k k') eqn:E; simpl.
    + rewrite E. reflexivity.
    + rewrite E. exact IH.
Qed.

Lemma lookup_set_prop_ne k k0 v ps :
  k <> k0 -> lookup k (set_prop k0 v ps) = lookup k ps.
Proof.
  intros Hne. induction ps as [| [k' v'] ps IH]; simpl.
  - destruct (String.eqb k k0) eqn:E; [apply String.eqb_eq in E; contradiction|].
    reflexivity.
  - destruct (String.eqb k0 k') eqn:E0; simpl.
    + apply String.eqb_eq in E0. subst k'.
      destruct (String.eqb k k0) eqn:E; [apply String.eqb_eq in E; contradiction|].
      reflexivity.
    + destruct (String.eqb k k'); [reflexivity|exact IH].
Qed.

Lemma wire_obj_cons k v ps :
  v <> VUndef ->
  wire (VObj ((k, v) :: ps)) =
  match wire (VObj ps) with VObj f => VObj ((k, wire v) :: f) | w => w end.
Proof. intros H. destruct v; try contradiction; reflexivity. Qed.

Lemma get_wire ps k :
  Forall (fun kv => snd kv <> VUndef) ps ->
  get (wire (VObj ps)) k = Some (wire (Client.getv (VObj ps) k)).
Proof.
  induction ps as [| [k' v] ps IH]; intros Hd; [reflexivity|].
  inversion Hd as [| ? ? Hv Hrest]; subst. simpl in Hv.
  rewrite (wire_obj_cons k' v ps Hv).
  specialize (IH Hrest).
  destruct (wire (VObj ps)) as [| | | | | | | f] eqn:W; try discriminate W.
  unfold Client.getv in *. simpl in IH |- *.
  destruct (String.eqb k k'); [reflexivity|].
  injection IH as IH. rewrite IH. reflexivity.
Qed.

Lemma set_prop_defined k v ps :
  v <> VUndef -> Forall (fun kv => snd kv <> VUndef) ps ->
  Forall (fun kv => snd kv <> VUndef) (set_prop k v ps).
Proof.
  intros Hv Hd. induction Hd as [| [k' v'] ps Hv' Hd IH]; simpl.
  - constructor; [exact Hv|constructor].
  - destruct (String.eqb k k'); constructor; auto.
Qed.

Module ServerFacts.
Import Server.

Lemma in_on_message_obj ready clients now ps c p :
  In (c, p) (on_message ready clients now (Some (VObj ps))) <->
  In c clients /\ ready c = OPEN /\ p = VObj (set_prop "timestamp" (VStr now) ps).
Proof.
  simpl. rewrite in_map_iff. split.
  - intros [c' [Heq Hin]]. inversion Heq; subst.
    apply filter_In in Hin as [Hin Hr].
    destruct (ready c); try discriminate. auto.
  - intros [Hin [Hr ->]]. exists c. split; [reflexivity|].
    apply filter_In. rewrite Hr. auto.
Qed.

Lemma on_message_targets ready clients now data c p :
  In (c, p) (on_message ready clients now data) -> In c clients.
Proof.
  destruct data as [md|]; simpl; [|tauto].
  destruct (stamp now md); [|simpl; tauto].
  rewrite in_map_iff. intros [c' [Heq Hin]]. inversion Heq; subst.
  apply filter_In in Hin. tauto.
Qed.

Lemma run_app ready r es1 es2 :
  run ready r (es1 ++ es2) =
  let (r1, o1) := run ready r es1 in
  let (r2, o2) := run ready r1 es2 in (r2, o1 ++ o2).
Proof.
  revert r. induction es1 as [| e es1 IH]; intros r; simpl.
  - destruct (run ready r es2). reflexivity.
  - destruct (step ready r e) as [r1 o1].
    rewrite IH. destruct (run ready r1 es1) as [r2 o2].
    destruct (run ready r2 es2) as [r3 o3].
    rewrite app_assoc. reflexivity.
Qed.

Lemma run_snoc_fst ready r es e :
  fst (run ready r (es ++ [e])) = fst (step ready (fst (run ready r es)) e).
Proof.
  rewrite run_app. destruct (run ready r es) as [r1 o1]. simpl.
  destruct (step ready r1 e). reflexivity.
Qed.

Lemma in_set_add c c' r : In c (set_add c' r) <-> In c r \/ c = c'.
Proof.
  unfold set_add. destruct (existsb (Nat.eqb c') r) eqn:E.
  - apply existsb_exists in E as [x [Hx Hq]]. apply Nat.eqb_eq in Hq. subst.
    split; [tauto|]. intros [H|H]; subst; auto.
  - rewrite in_app_iff. simpl. split; intros [H|H]; auto.
    + destruct H as [H|[]]; auto.
Qed.

Lemma in_set_delete c c' r : In c (set_delete c' r) <-> In c r /\ c <> c'.
Proof.
  unfold set_delete. rewrite filter_In. rewrite negb_true_iff, Nat.eqb_neq.
  split; intros [H1 H2]; auto.
Qed.

Lemma in_step ready r e c :
  In c (fst (step ready r e)) <->
  (exists now, e = Accept c now) \/ (~ ends c e /\ In c r).
Proof.
  unfold ends. destruct e as [c' now | c' now data | c' | c']; simpl.
  - rewrite in_set_add. split.
    + intros [H|H]; [right; split; [intros [H'|H']; discriminate|exact H]|].
      subst. left. eauto.
    + intros [[n Hn]|[_ H]]; [inversion Hn; auto|auto].
  - split; [intros H; right; split; [intros [H'|H']; discriminate|exact H]|].
    intros [[n Hn]|[_ H]]; [discriminate|exact H].
  - rewrite in_set_delete. split.
    + intros [H Hn]. right. split; [|exact H].
      intros [H'|H']; inversion H'; auto.
    + intros [[n Hn]|[Hn H]]; [discriminate|]. split; [exact H|].
      intros ->. apply Hn. left. reflexivity.
  - rewrite in_set_delete. split.
    + intros [H Hn]. right. split; [|exact H].
      intros [H'|H']; inversion H'; auto.
    + intros [[n Hn]|[Hn H]]; [discriminate|]. split; [exact H|].
      intros ->. apply Hn. right. reflexivity.
Qed.

Lemma live_in_nil c : ~ live_in c [].
Proof.
  intros [pre [now [post [H _]]]]. destruct pre; discriminate.
Qed.

Lemma live_in_snoc c es e :
  live_in c (es ++ [e]) <->
  (exists now, e = Accept c now) \/ (~ ends c e /\ live_in c es).
Proof.
  split.
  - intros [pre [now [post [Heq Hpost]]]].
    destruct post as [| x post'] using rev_ind.
    + left. exists now. apply app_inj_tail in Heq. destruct Heq as [_ ->].
      reflexivity.
    + right. clear IHpost'.
      rewrite app_comm_cons, app_assoc in Heq. apply app_inj_tail in Heq.
      destruct Heq as [Hes ->]. split.
      * apply Hpost. apply in_or_app. right. left. reflexivity.
      * exists pre, now, post'. split; [exact Hes|].
        intros e' He'. apply Hpost. apply in_or_app. left. exact He'.
  - intros [[now ->]|[Hn [pre [now [post [Heq Hpost]]]]]].
    + exists es, now, []. split; [reflexivity|]. intros e' [].
    + exists pre, now, (post ++ [e]). split.
      * subst. rewrite <- app_assoc. reflexivity.
      * intros e' He'. apply in_app_or in He' as [He'|[He'|[]]].
        -- apply Hpost. exact He'.
        -- subst. exact Hn.
Qed.

Lemma registry_live ready es c :
  In c (fst (run ready [] es)) <-> live_in c es.
Proof.
  induction es as [| e es IH] using rev_ind.
  - simpl. split; [tauto|]. apply live_in_nil.
  - rewrite run_snoc_fst, in_step, live_in_snoc, IH. reflexivity.
Qed.

Lemma no_send_to_absent ready r es c :
  ~ In c r -> (forall now, ~ In (Accept c now) es) ->
  forall v, ~ In (c, v) (snd (run ready r es)).
Proof.
  revert r. induction es as [| e es IH]; intros r Hr Hacc v; simpl; [tauto|].
  destruct (step ready r e) as [r1 o1] eqn:Hs.
  destruct (run ready r1 es) as [r2 o2] eqn:Hrun. simpl.
  assert (Hr1 : ~ In c r1).
  { intros Hin. assert (H := proj1 (in_step ready r e c)).
    rewrite Hs in H. simpl in H. destruct (H Hin) as [[n Hn]|[_ Hin']].
    - subst. apply (Hacc n). left. reflexivity.
    - exact (Hr Hin'). }
  assert (Ho1 : ~ In (c, v) o1).
  { destruct e as [c' now | c' now data | c' | c']; inversion Hs; subst.
    - intros [H|[]]. inversion H; subst. apply (Hacc now). left. reflexivity.
    - intros H. apply on_message_targets in H. exact (Hr H).
    - tauto.
    - tauto. }
  intros Hin. apply in_app_or in Hin as [Hin|Hin]; [exact (Ho1 Hin)|].
  assert (H := IH r1 Hr1 (fun n Hn => Hacc n (or_intror Hn)) v).
  rewrite Hrun in H. exact (H Hin).
Qed.

Lemma set_delete_absent c r : ~ In c r -> set_delete c r = r.
Proof.
  induction r as [| x r IH]; intros H; simpl; [reflexivity|].
  destruct (Nat.eqb c x) eqn:E; simpl.
  - apply Nat.eqb_eq in E. subst. exfalso. apply H. left. reflexivity.
  - rewrite IH; [reflexivity|]. intros Hin. apply H. right. exact Hin.
Qed.

Lemma set_delete_idem c r : set_delete c (set_delete c r) = set_delete c r.
Proof.
  apply set_delete_absent. rewrite in_set_delete. tauto.
Qed.

Lemma set_add_nodup c r : NoDup r -> NoDup (set_add c r).
Proof.
  intros H. unfold set_add. destruct (existsb (Nat.eqb c) r) eqn:E; [exact H|].
  apply NoDup_app; [exact H| constructor; [intros []| constructor] |].
  intros x Hx [Hy|[]]. subst. assert (existsb (Nat.eqb x) r = true) as E'.
  { apply existsb_exists. exists x. split; [exact Hx| apply Nat.eqb_refl]. }
  rewrite E' in E. discriminate.
Qed.

Lemma registry_nodup ready es : NoDup (fst (run ready [] es)).
Proof.
  induction es as [| e es IH] using rev_ind; [constructor|].
  rewrite run_snoc_fst. destruct e; simpl.
  - apply set_add_nodup. exact IH.
  - exact IH.
  - apply NoDup_filter. exact IH.
  - apply NoDup_filter. exact IH.
Qed.

Lemma on_message_nodup ready clients now ps :
  NoDup clients -> NoDup (map fst (on_message ready clients now (Some (VObj ps)))).
Proof.
  intros H. simpl. rewrite map_map. simpl. rewrite map_id.
  apply NoDup_filter. exact H.
Qed.

End ServerFacts.

(* ------------------------------------------------------------------------- *)
(** ** Relay server claims *)

Module ServerClaims.
Import Server ServerFacts.
Local Open Scope nat_scope.

(** C1 (as stated, refuted): a parsed [register] payload is not
    rebroadcast.  The relay never reads the kind: a [register] payload from a
    connection is stamped and sent to every open connection. *)
Lemma C1_register_is_rebroadcast :
  on_message (fun _ => OPEN) [0; 1] "T"
    (Some (VObj [("type", VStr "register"); ("username", VStr "bob")]))
  = [(0, VObj [("type", VStr "register"); ("username", VStr "bob");
               ("timestamp", VStr "T")]);
     (1, VObj [("type", VStr "register"); ("username", VStr "bob");
               ("timestamp", VStr "T")])].
Proof. reflexivity. Qed.

(** C1 (amended): every inbound payload that parses as a JSON object,
    whatever its kind ([register], [system], [message] or other), is
    stamped and sent to exactly the open connections of the Registry. *)
Theorem C1_any_kind_rebroadcast ready clients now ps c p :
  In (c, p) (on_message ready clients now (Some (VObj ps))) <->
  In c clients /\ ready c = OPEN /\ p = VObj (set_prop "timestamp" (VStr now) ps).
Proof. apply in_on_message_obj. Qed.

(** C2: a parsed Message of kind [message] is stamped and sent to exactly
    the connections of the current Registry whose readyState is OPEN (the
    originating connection included when it is one of them), once each. *)
Theorem C2_message_broadcast ready es now ps :
  lookup "type" ps = Some (VStr "message") ->
  let clients := fst (run ready [] es) in
  (forall c p,
     In (c, p) (on_message ready clients now (Some (VObj ps))) <->
     In c clients /\ ready c = OPEN /\
     p = VObj (set_prop "timestamp" (VStr now) ps)) /\
  NoDup (map fst (on_message ready clients now (Some (VObj ps)))).
Proof.
  intros _ clients. split.
  - intros c p. apply in_on_message_obj.
  - apply on_message_nodup. apply registry_nodup.
Qed.

Lemma C2_message_broadcast_witness :
  lookup "type" [("type", VStr "message"); ("user", VStr "Alice")]
    = Some (VStr "message") /\
  NoDup (map fst (on_message (fun _ => OPEN)
    (fst (run (fun _ => OPEN) [] [Accept 0 "t0"; Accept 1 "t1"])) "T"
    (Some (VObj [("type", VStr "message"); ("user", VStr "Alice")])))).
Proof.
  split; [reflexivity|].
  apply (C2_message_broadcast (fun _ => OPEN) [Accept 0 "t0"; Accept 1 "t1"] "T"
           [("type", VStr "message"); ("user", VStr "Alice")]).
  reflexivity.
Defined.

(** C3: every Message (JSON object) the relay broadcasts carries the
    relay's receipt time as its [timestamp], whatever the client sent. *)
Theorem C3_timestamp_authority ready clients now data c ps :
  In (c, VObj ps) (on_message ready clients now data) ->
  lookup "timestamp" ps = Some (VStr now).
Proof.
  destruct data as [md|]; simpl; [|tauto].
  destruct md; simpl; try tauto;
    rewrite in_map_iff; intros [c' [Heq _]]; inversion Heq; subst.
  apply lookup_set_prop.
Qed.

Lemma C3_timestamp_authority_witness :
  lookup "timestamp" [("user", VStr "Alice"); ("timestamp", VStr "T")]
    = Some (VStr "T").
Proof.
  apply (C3_timestamp_authority (fun _ => OPEN) [0] "T"
           (Some (VObj [("user", VStr "Alice"); ("timestamp", VStr "client")]))
           0).
  simpl. left. reflexivity.
Defined.

(** C5 (as stated, refuted): JSON missing the fields of a [message] is
    not dropped by the relay; it is stamped and broadcast. *)
Lemma C5_incomplete_message_forwarded :
  on_message (fun _ => OPEN) [0] "T" (Some (VObj [("type", VStr "message")]))
  = [(0, VObj [("type", VStr "message"); ("timestamp", VStr "T")])].
Proof. reflexivity. Qed.

(** C5 (amended): a payload that is not valid JSON, or is the JSON value
    [null], is dropped by the relay with no send and no Registry change, and
    every later event behaves as if it had never arrived; the session leaves
    its state unchanged on either.  A JSON object of kind [message] (or with
    no kind) whose [user] or [message] is missing or empty is not dropped by
    the relay: it is stamped and sent to every open registered connection,
    and a session receiving it leaves its state unchanged. *)
Theorem C5_malformed_dropped ready r es1 es2 c now :
  run ready r (es1 ++ Inbound c now None :: es2) = run ready r (es1 ++ es2) /\
  run ready r (es1 ++ Inbound c now (Some VNull) :: es2)
    = run ready r (es1 ++ es2) /\
  (forall s, Client.on_message s None = s /\ Client.on_message s (Some VNull) = s) /\
  (forall clients ps,
     Forall (fun kv => snd kv <> VUndef) ps ->
     lookup "type" ps = Some (VStr "message") \/ lookup "type" ps = None ->
     Client.getv (VObj ps) "user" = VUndef \/ Client.getv (VObj ps) "user" = VStr "" \/
     Client.getv (VObj ps) "message" = VUndef \/
     Client.getv (VObj ps) "message" = VStr "" ->
     (forall c' p,
        In (c', p) (on_message ready clients now (Some (VObj ps))) <->
        In c' clients /\ ready c' = OPEN /\
        p = VObj (set_prop "timestamp" (VStr now) ps)) /\
     (forall s c' p,
        In (c', p) (on_message ready clients now (Some (VObj ps))) ->
        Client.on_message s (Some (wire p)) = s)).
Proof.
  split; [|split; [|split]].
  - rewrite !run_app. destruct (run ready r es1) as [r1 o1]. simpl.
    destruct (run ready r1 es2). reflexivity.
  - rewrite !run_app. destruct (run ready r es1) as [r1 o1]. simpl.
    destruct (run ready r1 es2). reflexivity.
  - intros s. split; reflexivity.
  - intros clients ps Hd Hty Hf. split; [intros; apply in_on_message_obj|].
    intros s c' p Hin. apply in_on_message_obj in Hin as [_ [_ ->]].
    set (ps' := set_prop "timestamp" (VStr now) ps).
    assert (Hd' : Forall (fun kv => snd kv <> VUndef) ps').
    { apply set_prop_defined; [discriminate|exact Hd]. }
    assert (Hg : forall k, k <> "timestamp" ->
                 Client.getv (VObj ps') k = Client.getv (VObj ps) k).
    { intros k Hk. unfold Client.getv, get, ps'.
      rewrite lookup_set_prop_ne by exact Hk. reflexivity. }
    assert (Hw : forall k, k <> "timestamp" ->
                 Client.getv (wire (VObj ps')) k = wire (Client.getv (VObj ps) k)).
    { intros k Hk. unfold Client.getv at 1. rewrite (get_wire ps' k Hd').
      rewrite Hg by exact Hk. reflexivity. }
    unfold Client.on_message. rewrite (get_wire ps' "type" Hd').
    rewrite Hg by discriminate. cbv iota beta.
    rewrite (Hw "user"), (Hw "message") by discriminate.
    assert (Ht : strict_eq_str (wire (Client.getv (VObj ps) "type")) "system" = false /\
                 strict_eq_str (wire (Client.getv (VObj ps) "type")) "register" = false).
    { unfold Client.getv, get. destruct Hty as [-> | ->]; split; reflexivity. }
    destruct Ht as [-> ->].
    destruct Hf as [H|[H|[H|H]]]; rewrite H; simpl; try reflexivity;
      rewrite andb_false_r; reflexivity.
Qed.

Lemma C5_malformed_dropped_witness :
  Client.on_message
    {| Client.messages := []; Client.inputMessage := ""; Client.username := "Bob";
       Client.hasJoined := true; Client.connectionStatus := Client.Connected;
       Client.sock := Some OPEN |}
    (Some (wire (VObj [("type", VStr "message"); ("user", VStr "Alice");
                       ("timestamp", VStr "T")])))
  = {| Client.messages := []; Client.inputMessage := ""; Client.username := "Bob";
       Client.hasJoined := true; Client.connectionStatus := Client.Connected;
       Client.sock := Some OPEN |}.
Proof.
  destruct (proj2 (proj2 (proj2 (C5_malformed_dropped (fun _ => OPEN) [] [] []
              0 "T")))
              [0] [("type", VStr "message"); ("user", VStr "Alice")]) as [_ H].
  - repeat constructor; discriminate.
  - left. reflexivity.
  - right. right. left. reflexivity.
  - apply (H _ 0). left. reflexivity.
Defined.

(** C6: a connection is in the Registry exactly when it was accepted and
    no close or error event for it came later; removing an absent
    connection changes nothing; and once a connection is closed or errored,
    no later event sends to it (handles are never accepted twice). *)
Theorem C6_registry_membership ready es c :
  (In c (fst (run ready [] es)) <-> live_in c es) /\
  (forall r, ~ In c r -> set_delete c r = r) /\
  (forall e es2 v, ends c e -> (forall now, ~ In (Accept c now) es2) ->
     ~ In (c, v) (snd (run ready (fst (run ready [] (es ++ [e]))) es2))).
Proof.
  split; [apply registry_live|split; [apply set_delete_absent|]].
  intros e es2 v He Hacc. apply no_send_to_absent; [|exact Hacc].
  rewrite registry_live, live_in_snoc. intros [[n Hn]|[Hn _]].
  - destruct He as [-> | ->]; discriminate.
  - exact (Hn He).
Qed.

Lemma C6_registry_membership_witness :
  ~ In (0, welcome "x")
    (snd (run (fun _ => OPEN)
            (fst (run (fun _ => OPEN) [] ([Accept 0 "t0"; Accept 1 "t1"] ++ [Close 0])))
            [Inbound 1 "t2" (Some (VObj [("user", VStr "Bob")]))])).
Proof.
  apply (proj2 (proj2 (C6_registry_membership (fun _ => OPEN)
                          [Accept 0 "t0"; Accept 1 "t1"] 0))).
  - left. reflexivity.
  - intros now [H|[]]. discriminate.
Defined.

End ServerClaims.

(* ------------------------------------------------------------------------- *)
(** ** Client session claims *)

Module ClientClaims.
Import Client.

(** A session of Identity "Alice", connected, with an empty sequence. *)
Definition alice (input : string) : session :=
  {| messages := []; inputMessage := input; username := "Alice";
     hasJoined := true; connectionStatus := Connected; sock := Some OPEN |}.

(** C4 (as stated, refuted): a [message] whose [user] is the empty string
    is not appended at all, with either classification. *)
Lemma C4_empty_user_not_appended :
  messages (on_message (alice "")
    (Some (VObj [("type", VStr "message"); ("user", VStr "");
                 ("message", VStr "hi")]))) = [].
Proof. reflexivity. Qed.

(** C4 (amended): an inbound payload of kind [message] (or without a kind)
    whose [user] and [message] fields are both truthy is appended, as its
    fields plus [isMine], where [isMine] holds exactly when [user] is the
    string equal to the session's Identity; one whose [user] or [message] is
    missing or empty is not appended and leaves the session unchanged. *)
Theorem C4_isSelf_classification s ps :
  lookup "type" ps = Some (VStr "message") \/ lookup "type" ps = None ->
  (truthy (getv (VObj ps) "user") = true ->
   truthy (getv (VObj ps) "message") = true ->
   exists b,
     messages (on_message s (Some (VObj ps)))
       = messages s ++ [VObj (set_prop "isMine" (VBool b) ps)] /\
     (b = true <-> getv (VObj ps) "user" = VStr (username s))) /\
  (getv (VObj ps) "user" = VUndef \/ getv (VObj ps) "user" = VStr "" \/
   getv (VObj ps) "message" = VUndef \/ getv (VObj ps) "message" = VStr "" ->
   on_message s (Some (VObj ps)) = s).
Proof.
  intros Hty.
  assert (Hsys : strict_eq_str (getv (VObj ps) "type") "system" = false /\
                 strict_eq_str (getv (VObj ps) "type") "register" = false).
  { unfold getv, get. destruct Hty as [-> | ->]; split; reflexivity. }
  split.
  - intros Hu Hm. unfold on_message. simpl get.
    unfold getv, get in Hsys, Hu, Hm |- *. destruct Hsys as [H1 H2].
    rewrite H1, H2, Hu, Hm. simpl.
    exists (strict_eq_str (match lookup "user" ps with Some v => v | None => VUndef end)
              (username s)).
    split; [reflexivity|].
    destruct (lookup "user" ps) as [[]|]; simpl; split; intros H;
      try discriminate; try (inversion H; fail).
    + apply String.eqb_eq in H. subst. reflexivity.
    + inversion H. apply String.eqb_refl.
  - intros Hf. unfold on_message.
    change (get (VObj ps) "type") with (Some (getv (VObj ps) "type")).
    cbv iota beta. destruct Hsys as [-> ->].
    destruct Hf as [H|[H|[H|H]]]; rewrite H; simpl; try reflexivity;
      rewrite andb_false_r; reflexivity.
Qed.

Lemma C4_isSelf_classification_witness :
  messages (on_message (alice "")
    (Some (VObj [("type", VStr "message"); ("user", VStr "Alice");
                 ("message", VStr "hi")])))
  = [VObj [("type", VStr "message"); ("user", VStr "Alice");
           ("message", VStr "hi"); ("isMine", VBool true)]] /\
  on_message (alice "")
    (Some (VObj [("type", VStr "message"); ("user", VStr "Alice")]))
  = alice "".
Proof.
  split.
  - destruct (proj1 (C4_isSelf_classification (alice "")
                [("type", VStr "message"); ("user", VStr "Alice");
                 ("message", VStr "hi")] (or_introl eq_refl)) eq_refl eq_refl)
      as [b [Hm Hb]].
    rewrite Hm. destruct Hb as [_ Hb]. rewrite (Hb eq_refl). reflexivity.
  - apply (proj2 (C4_isSelf_classification (alice "")
                [("type", VStr "message"); ("user", VStr "Alice")]
                (or_introl eq_refl))).
    right. right. left. reflexivity.
Defined.

(** C7: [leave()] from any state clears the sequence and the Identity,
    leaves the joined state, closes the socket if there is one, and ends
    disconnected (in a reachable state); a second [leave()] changes
    nothing, and a duplicate close event on the relay removes nothing more
    and sends nothing. *)
Theorem C7_leave_idempotent s :
  (wf s -> connectionStatus (leave s) = Disconnected) /\
  messages (leave s) = [] /\ username (leave s) = "" /\
  hasJoined (leave s) = false /\
  (sock s = None -> sock (leave s) = None) /\
  (sock s <> None -> sock (leave s) = Some CLOSED) /\
  leave (leave s) = leave s /\
  (forall ready r c,
     Server.step ready (fst (Server.step ready r (Server.Close c))) (Server.Close c)
       = Server.step ready r (Server.Close c)).
Proof.
  destruct s as [m i u h st [rs|]].
  - repeat split; try (destruct rs, h; reflexivity).
    + unfold wf. destruct rs, h; simpl; try reflexivity; intros H; apply H; auto.
    + intros H. discriminate.
    + intros ready r c. simpl. rewrite ServerFacts.set_delete_idem. reflexivity.
  - repeat split; try (destruct h; reflexivity).
    + unfold wf. destruct h; simpl; intros H; apply H; auto.
    + intros H. exfalso. apply H. reflexivity.
    + intros ready r c. simpl. rewrite ServerFacts.set_delete_idem. reflexivity.
Qed.

Lemma C7_leave_idempotent_witness :
  connectionStatus (leave (alice "hi")) = Disconnected.
Proof.
  apply (proj1 (C7_leave_idempotent (alice "hi"))).
  unfold wf. simpl. intros [H|H]; discriminate.
Defined.

(** C8 (as stated, refuted): the body sent is the trimmed text, and a
    non-empty text of white space only is not sent. *)
Lemma C8_body_is_trimmed :
  map (fun v => getv v "message") (snd (sendMessage (alice " hi") "T"))
    = [VStr "hi"] /\
  snd (sendMessage (alice "   ") "T") = [].
Proof. split; reflexivity. Qed.

(** C8 (amended): when the trimmed text is non-empty and the socket is
    OPEN, [sendMessage] transmits exactly one Message of kind [message]
    with the Identity as [user], the trimmed text as body and the client's
    clock as provisional timestamp, and leaves the sequence unchanged; a
    text that is empty or only white space transmits nothing and changes
    nothing. *)
Theorem C8_send_constructs_message s now :
  (trim (inputMessage s) <> "" -> sock s = Some OPEN ->
   snd (sendMessage s now) =
     [VObj [("type", VStr "message"); ("user", VStr (username s));
            ("message", VStr (trim (inputMessage s)));
            ("timestamp", VStr now)]] /\
   messages (fst (sendMessage s now)) = messages s) /\
  (trim (inputMessage s) = "" ->
   snd (sendMessage s now) = [] /\ fst (sendMessage s now) = s).
Proof.
  split.
  - intros Ht Hs. unfold sendMessage.
    destruct (String.eqb (trim (inputMessage s)) "") eqn:E.
    + apply String.eqb_eq in E. contradiction.
    + rewrite Hs. split; reflexivity.
  - intros Ht. unfold sendMessage. rewrite Ht. split; reflexivity.
Qed.

Lemma C8_send_constructs_message_witness :
  snd (sendMessage (alice " hi ") "T") =
    [VObj [("type", VStr "message"); ("user", VStr "Alice");
           ("message", VStr "hi"); ("timestamp", VStr "T")]] /\
  snd (sendMessage (alice "   ") "T") = [].
Proof.
  split.
  - apply (proj1 (C8_send_constructs_message (alice " hi ") "T")).
    + vm_compute. discriminate.
    + reflexivity.
  - apply (proj2 (C8_send_constructs_message (alice "   ") "T")).
    reflexivity.
Defined.

(** C9: with empty text, or with no OPEN socket, [sendMessage] transmits
    nothing and the sequence length is unchanged. *)
Theorem C9_send_guard s now :
  inputMessage s = "" \/ sock s <> Some OPEN ->
  snd (sendMessage s now) = [] /\
  length (messages (fst (sendMessage s now))) = length (messages s).
Proof.
  unfold sendMessage. intros [H|H].
  - rewrite H. split; reflexivity.
  - destruct (String.eqb (trim (inputMessage s)) "");
      [split; reflexivity|].
    destruct (sock s) as [[]|]; try (split; reflexivity).
    exfalso. apply H. reflexivity.
Qed.

Lemma C9_send_guard_witness :
  snd (sendMessage (alice "") "T") = [] /\
  snd (sendMessage {| messages := []; inputMessage := "hi"; username := "Alice";
                      hasJoined := true; connectionStatus := Connecting;
                      sock := Some CONNECTING |} "T") = [].
Proof.
  split.
  - apply (C9_send_guard (alice "") "T"). left. reflexivity.
  - apply (C9_send_guard {| messages := []; inputMessage := "hi";
                            username := "Alice"; hasJoined := true;
                            connectionStatus := Connecting;
                            sock := Some CONNECTING |} "T").
    right. simpl. discriminate.
Defined.

(** C10 (as stated, refuted): a [message] whose [user] is the number 1,
    not a string, is appended. *)
Lemma C10_non_string_user_appended :
  length (messages (on_message (alice "")
    (Some (VObj [("type", VStr "message"); ("user", VNum 1%Q);
                 ("message", VStr "hi")])))) = 1%nat.
Proof. reflexivity. Qed.

(** C10 (amended): a non-system, non-register object payload is appended
    exactly when its [user] and [message] fields are both truthy; in
    particular a missing or empty [user] or [message] leaves the session
    unchanged. *)
Theorem C10_append_requires_fields s ps :
  strict_eq_str (getv (VObj ps) "type") "system" = false ->
  strict_eq_str (getv (VObj ps) "type") "register" = false ->
  on_message s (Some (VObj ps)) =
    (if truthy (getv (VObj ps) "user") && truthy (getv (VObj ps) "message")
     then append s (spread_isMine (VObj ps)
                      (strict_eq_str (getv (VObj ps) "user") (username s)))
     else s) /\
  (getv (VObj ps) "user" = VUndef \/ getv (VObj ps) "user" = VStr "" \/
   getv (VObj ps) "message" = VUndef \/ getv (VObj ps) "message" = VStr "" ->
   on_message s (Some (VObj ps)) = s).
Proof.
  intros H1 H2.
  assert (Heq : on_message s (Some (VObj ps)) =
    (if truthy (getv (VObj ps) "user") && truthy (getv (VObj ps) "message")
     then append s (spread_isMine (VObj ps)
                      (strict_eq_str (getv (VObj ps) "user") (username s)))
     else s)).
  { unfold on_message.
    change (get (VObj ps) "type") with (Some (getv (VObj ps) "type")).
    cbv iota beta. rewrite H1, H2. reflexivity. }
  split; [exact Heq|].
  intros H. rewrite Heq.
  destruct H as [H|[H|[H|H]]]; rewrite H; simpl;
    [reflexivity|reflexivity| |];
    destruct (truthy (getv (VObj ps) "user")); reflexivity.
Qed.

Lemma C10_append_requires_fields_witness :
  on_message (alice "")
    (Some (VObj [("type", VStr "message"); ("user", VStr "Alice")]))
  = alice "".
Proof.
  apply (C10_append_requires_fields (alice "")
           [("type", VStr "message"); ("user", VStr "Alice")]);
    [reflexivity|reflexivity|].
  right. right. left. reflexivity.
Defined.

End ClientClaims.

(* ------------------------------------------------------------------------- *)
(** ** Further properties of the relay server *)

Module ServerExtras.
Import Server ServerFacts ServerMore.
Local Open Scope nat_scope.

Lemma run_closes ready l r :
  (forall c, In c (fst (run ready r (map Close l))) <-> In c r /\ ~ In c l) /\
  snd (run ready r (map Close l)) = [].
Proof.
  revert r. induction l as [| x l IH]; intros r; simpl.
  - split; [intros c; tauto|reflexivity].
  - destruct (run ready (set_delete x r) (map Close l)) as [r2 o2] eqn:E.
    destruct (IH (set_delete x r)) as [Hin Hout]. rewrite E in Hin, Hout.
    simpl in *. split; [|exact Hout].
    intros c. rewrite Hin, in_set_delete. intuition.
Qed.

(** After SIGINT closes every registered connection and their close events
    are delivered, the Registry is empty and nothing was sent. *)
Theorem shutdown_empties_registry ready clients :
  run ready clients (shutdown_events clients) = ([], []).
Proof.
  unfold shutdown_events. destruct (run_closes ready clients clients) as [Hin Hout].
  destruct (run ready clients (map Close clients)) as [r o]. simpl in *.
  subst o. destruct r as [| y ys]; [reflexivity|].
  exfalso. destruct (proj1 (Hin y) (or_introl eq_refl)) as [H1 H2]. exact (H2 H1).
Qed.

End ServerExtras.

(* ------------------------------------------------------------------------- *)
(** ** Further properties of the client session *)

Module ClientExtras.
Import Client ClientMore.

Lemma drop_ws_head l :
  drop_ws l = [] \/ exists a t, drop_ws l = a :: t /\ is_ws a = false.
Proof.
  induction l as [| a l IH]; simpl; [left; reflexivity|].
  destruct (is_ws a) eqn:E; [exact IH|]. right. eauto.
Qed.

Lemma drop_ws_suffix l : exists w, l = w ++ drop_ws l.
Proof.
  induction l as [| a l [w IH]]; simpl; [exists []; reflexivity|].
  destruct (is_ws a); [exists (a :: w); simpl; f_equal; exact IH|].
  exists []. reflexivity.
Qed.

Lemma trim_not_ws s :
  trim s <> "" -> starts_ws (trim s) = false /\ ends_ws (trim s) = false.
Proof.
  unfold trim, starts_ws, ends_ws. rewrite list_ascii_of_string_of_list_ascii.
  set (m := drop_ws (list_ascii_of_string s)). intros Hne.
  destruct (drop_ws_suffix (rev m)) as [w Hw].
  destruct (drop_ws (rev m)) as [| a t] eqn:Ed.
  { exfalso. apply Hne. reflexivity. }
  split.
  - assert (Hm : m = rev (a :: t) ++ rev w).
    { rewrite <- rev_app_distr, <- Hw, rev_involutive. reflexivity. }
    destruct (rev (a :: t)) as [| b u] eqn:Er.
    + apply (f_equal (@length _)) in Er. rewrite length_rev in Er. discriminate.
    + destruct (drop_ws_head (list_ascii_of_string s)) as [H0|[a' [t' [H0 H1]]]];
        fold m in H0; rewrite Hm in H0; simpl in H0; [discriminate|].
      inversion H0; subst. exact H1.
  - rewrite rev_involutive.
    destruct (drop_ws_head (rev m)) as [H0|[a' [t' [H0 H1]]]];
      rewrite Ed in H0; [discriminate|]. inversion H0; subst. exact H1.
Qed.

(** [sendMessage] either leaves the state untouched and sends nothing, or
    sends one [message] whose body is non-empty and neither starts nor ends
    with white space, clears the input and keeps the sequence. *)
Theorem sendMessage_outcome s now :
  (snd (sendMessage s now) = [] /\ fst (sendMessage s now) = s) \/
  (exists body,
     snd (sendMessage s now) =
       [VObj [("type", VStr "message"); ("user", VStr (username s));
              ("message", VStr body); ("timestamp", VStr now)]] /\
     body <> "" /\ starts_ws body = false /\ ends_ws body = false /\
     inputMessage (fst (sendMessage s now)) = "" /\
     messages (fst (sendMessage s now)) = messages s).
Proof.
  unfold sendMessage.
  destruct (String.eqb (trim (inputMessage s)) "") eqn:E;
    [left; split; reflexivity|].
  destruct (sock s) as [[]|] eqn:Es; try (left; split; reflexivity).
  right. exists (trim (inputMessage s)).
  assert (Hne : trim (inputMessage s) <> "").
  { intros H. rewrite H in E. discriminate. }
  destruct (trim_not_ws _ Hne). repeat split; auto.
Qed.

(** [onmessage] only ever appends one record to the sequence (or leaves it
    as is) and touches no other part of the state. *)
Theorem on_message_append_only s data :
  (messages (on_message s data) = messages s \/
   exists e, messages (on_message s data) = messages s ++ [e]) /\
  inputMessage (on_message s data) = inputMessage s /\
  username (on_message s data) = username s /\
  hasJoined (on_message s data) = hasJoined s /\
  connectionStatus (on_message s data) = connectionStatus s /\
  sock (on_message s data) = sock s.
Proof.
  unfold on_message.
  destruct data as [md|]; [|repeat split; left; reflexivity].
  destruct (get md "type") as [ty|]; [|repeat split; left; reflexivity].
  destruct (strict_eq_str ty "system");
    [repeat split; right; eexists; reflexivity|].
  destruct (strict_eq_str ty "register"); [repeat split; left; reflexivity|].
  destruct (truthy (getv md "user") && truthy (getv md "message"));
    [repeat split; right; eexists; reflexivity|repeat split; left; reflexivity].
Qed.

(** A JSON payload that is not an object ([null], a boolean, number,
    string or array) never changes the session. *)
Theorem on_message_ignores_non_objects s v :
  match v with VObj _ => False | _ => True end -> on_message s (Some v) = s.
Proof. destruct v; simpl; tauto || reflexivity. Qed.

Lemma on_message_ignores_non_objects_witness :
  on_message {| messages := []; inputMessage := ""; username := "Alice";
                hasJoined := true; connectionStatus := Connected;
                sock := Some OPEN |} (Some (VArr [VStr "hi"]))
  = {| messages := []; inputMessage := ""; username := "Alice";
       hasJoined := true; connectionStatus := Connected; sock := Some OPEN |}.
Proof. apply on_message_ignores_non_objects. exact I. Defined.

(** A regular record is stored with the [isMine] the session computed,
    whatever [isMine] the payload carried.  Rendered, a truthy [isSystem] in
    the payload makes it a centred system bubble; otherwise it is
    right-aligned without a name exactly when it is the session's own, and
    left-aligned with the sender's name otherwise; a plain object as its
    [message] (or as a shown [user]) makes the render throw. *)
Theorem regular_record_rendering s ps :
  strict_eq_str (getv (VObj ps) "type") "system" = false ->
  strict_eq_str (getv (VObj ps) "type") "register" = false ->
  truthy (getv (VObj ps) "user") = true ->
  truthy (getv (VObj ps) "message") = true ->
  exists e,
    messages (on_message s (Some (VObj ps))) = messages s ++ [e] /\
    getv e "isMine" = VBool (strict_eq_str (getv (VObj ps) "user") (username s)) /\
    render_bubble e =
      (if truthy (getv (VObj ps) "isSystem") then
         (if react_child_ok (getv (VObj ps) "message") then Some (Center, false)
          else None)
       else if strict_eq_str (getv (VObj ps) "user") (username s) then
         (if react_child_ok (getv (VObj ps) "message") then Some (End, false)
          else None)
       else if react_child_ok (getv (VObj ps) "user") &&
               react_child_ok (getv (VObj ps) "message")
       then Some (Start, true) else None).
Proof.
  intros H1 H2 Hu Hm.
  set (mine := strict_eq_str (getv (VObj ps) "user") (username s)).
  exists (VObj (set_prop "isMine" (VBool mine) ps)).
  assert (Hmine : getv (VObj (set_prop "isMine" (VBool mine) ps)) "isMine"
                  = VBool mine).
  { unfold getv, get. rewrite lookup_set_prop. reflexivity. }
  assert (Hk : forall k, k <> "isMine" ->
     getv (VObj (set_prop "isMine" (VBool mine) ps)) k = getv (VObj ps) k).
  { intros k Hne. unfold getv, get. rewrite lookup_set_prop_ne by exact Hne.
    reflexivity. }
  split; [|split; [exact Hmine|]].
  - unfold on_message.
    change (get (VObj ps) "type") with (Some (getv (VObj ps) "type")).
    cbv iota beta. rewrite H1, H2, Hu, Hm. reflexivity.
  - unfold render_bubble. rewrite Hmine, !Hk by discriminate. reflexivity.
Qed.

Lemma regular_record_rendering_witness :
  (exists e,
    messages (on_message (alice_joined "")
      (Some (VObj [("user", VStr "Mallory"); ("message", VStr "x");
                   ("isMine", VBool true); ("isSystem", VBool true)]))) = [e] /\
    getv e "isMine" = VBool false /\ render_bubble e = Some (Center, false)) /\
  (exists e,
    messages (on_message (alice_joined "")
      (Some (VObj [("user", VStr "x"); ("message", VObj [])]))) = [e] /\
    getv e "isMine" = VBool false /\ render_bubble e = None).
Proof.
  split.
  - apply (regular_record_rendering (alice_joined "")
             [("user", VStr "Mallory"); ("message", VStr "x");
              ("isMine", VBool true); ("isSystem", VBool true)]);
      reflexivity.
  - apply (regular_record_rendering (alice_joined "")
             [("user", VStr "x"); ("message", VObj [])]); reflexivity.
Defined.

(** A [system] object from any connection is stamped and sent by the relay
    to exactly the open registered connections, and every receiving session
    stores it as a record of user "System", not its own, with the payload's
    [message] (after the JSON round trip) and the relay's time; the relay's
    own welcome message is stored the same way. *)
Theorem system_payload_relayed ready clients now ps :
  Forall (fun kv => snd kv <> VUndef) ps ->
  lookup "type" ps = Some (VStr "system") ->
  (forall c p,
     In (c, p) (Server.on_message ready clients now (Some (VObj ps))) <->
     In c clients /\ ready c = OPEN /\
     p = VObj (set_prop "timestamp" (VStr now) ps)) /\
  (forall sB c p,
     In (c, p) (Server.on_message ready clients now (Some (VObj ps))) ->
     messages (on_message sB (Some (wire p))) = messages sB ++
       [VObj [("user", VStr "System"); ("message", wire (getv (VObj ps) "message"));
              ("timestamp", VStr now); ("isMine", VBool false);
              ("isSystem", VBool true)]]) /\
  (forall sB,
     messages (on_message sB (Some (wire (Server.welcome now)))) = messages sB ++
       [VObj [("user", VStr "System"); ("message", VStr "Connected to chat server!");
              ("timestamp", VStr now); ("isMine", VBool false);
              ("isSystem", VBool true)]]).
Proof.
  intros Hd Hty. split; [intros; apply ServerFacts.in_on_message_obj|].
  split; [|intros; reflexivity].
  intros sB c p Hin. apply ServerFacts.in_on_message_obj in Hin as [_ [_ ->]].
  set (ps' := set_prop "timestamp" (VStr now) ps).
  assert (Hd' : Forall (fun kv => snd kv <> VUndef) ps').
  { apply set_prop_defined; [discriminate|exact Hd]. }
  assert (Hw : forall k, getv (wire (VObj ps')) k = wire (getv (VObj ps') k)).
  { intros k. unfold getv at 1. rewrite (get_wire ps' k Hd'). reflexivity. }
  assert (Hg : forall k, k <> "timestamp" ->
               getv (VObj ps') k = getv (VObj ps) k).
  { intros k Hk. unfold getv, get, ps'.
    rewrite lookup_set_prop_ne by exact Hk. reflexivity. }
  assert (Ht : getv (VObj ps') "timestamp" = VStr now).
  { unfold getv, get, ps'. rewrite lookup_set_prop. reflexivity. }
  unfold on_message. rewrite (get_wire ps' "type" Hd').
  rewrite Hg by discriminate.
  unfold getv at 1, get at 1. rewrite Hty. cbv iota beta. simpl strict_eq_str.
  cbv iota. unfold append, system_entry. simpl messages.
  rewrite !Hw, Ht, Hg by discriminate. reflexivity.
Qed.

Lemma system_payload_relayed_witness :
  messages (on_message (alice_joined "")
    (Some (wire (VObj [("type", VStr "system"); ("message", VInf false);
                       ("timestamp", VStr "T")]))))
  = [VObj [("user", VStr "System"); ("message", VNull);
           ("timestamp", VStr "T"); ("isMine", VBool false);
           ("isSystem", VBool true)]].
Proof.
  refine (eq_trans (proj1 (proj2 (system_payload_relayed (fun _ => OPEN) [0%nat] "T"
           [("type", VStr "system"); ("message", VInf false)]
           ltac:(repeat constructor; discriminate) eq_refl)) (alice_joined "") 0%nat
           (VObj [("type", VStr "system"); ("message", VInf false);
                  ("timestamp", VStr "T")]) (or_introl eq_refl)) _).
  reflexivity.
Defined.

Lemma getItem_removeItem k st : getItem k (removeItem k st) = None.
Proof.
  induction st as [| [k' v] st IH]; simpl; [reflexivity|].
  destruct (String.eqb k k') eqn:E; simpl; [exact IH|].
  rewrite E. exact IH.
Qed.

Lemma getItem_removeItem_other k k0 st :
  k <> k0 -> getItem k (removeItem k0 st) = getItem k st.
Proof.
  intros Hne. induction st as [| [k' v] st IH]; simpl; [reflexivity|].
  destruct (String.eqb k0 k') eqn:E0; simpl.
  - apply String.eqb_eq in E0. subst k'.
    destruct (String.eqb k k0) eqn:E; [apply String.eqb_eq in E; contradiction|].
    exact IH.
  - destruct (String.eqb k k'); [reflexivity|exact IH].
Qed.

(** [joinChat] does nothing for a blank name; otherwise it marks the
    session joined, keeps the name as typed in the state, and stores it
    trimmed together with the joined flag. *)
Theorem joinChat_behaviour s st :
  (trim (username s) = "" -> joinChat s st = (s, st)) /\
  (trim (username s) <> "" ->
     hasJoined (fst (joinChat s st)) = true /\
     username (fst (joinChat s st)) = username s /\
     messages (fst (joinChat s st)) = messages s /\
     getItem "chatUsername" (snd (joinChat s st)) = Some (trim (username s)) /\
     getItem "chatHasJoined" (snd (joinChat s st)) = Some "true").
Proof.
  unfold joinChat. split.
  - intros H. rewrite H. reflexivity.
  - intros H. apply String.eqb_neq in H. rewrite H. simpl.
    cbn. repeat split; reflexivity.
Qed.

Lemma joinChat_behaviour_witness :
  snd (joinChat {| messages := []; inputMessage := ""; username := "  ";
                   hasJoined := false; connectionStatus := Disconnected;
                   sock := None |} []) = [] /\
  getItem "chatUsername"
    (snd (joinChat {| messages := []; inputMessage := ""; username := " Al ";
                      hasJoined := false; connectionStatus := Disconnected;
                      sock := None |} [])) = Some "Al".
Proof.
  split.
  - rewrite (proj1 (joinChat_behaviour
              {| messages := []; inputMessage := ""; username := "  ";
                 hasJoined := false; connectionStatus := Disconnected;
                 sock := None |} []) eq_refl).
    reflexivity.
  - apply (proj2 (joinChat_behaviour
              {| messages := []; inputMessage := ""; username := " Al ";
                 hasJoined := false; connectionStatus := Disconnected;
                 sock := None |} [])).
    vm_compute. discriminate.
Defined.

(** Page reload: after a join, the reloaded session is joined under the
    trimmed name (the name the session used before the reload may differ by
    surrounding white space); after a logout, it starts unjoined with an
    empty name. *)
Theorem reload_round_trip s st :
  trim (username s) <> "" ->
  username (init (snd (joinChat s st))) = trim (username s) /\
  hasJoined (init (snd (joinChat s st))) = true /\
  username (fst (joinChat s st)) = username s /\
  (forall st', username (init (logout_storage st')) = "" /\
               hasJoined (init (logout_storage st')) = false).
Proof.
  intros H. destruct (proj2 (joinChat_behaviour s st) H)
    as [_ [Hname [_ [Hu Hj]]]].
  split; [|split; [|split]].
  - unfold init. rewrite Hu. reflexivity.
  - unfold init. rewrite Hj. reflexivity.
  - exact Hname.
  - intros st'. unfold init, logout_storage.
    rewrite getItem_removeItem, getItem_removeItem_other by discriminate.
    rewrite getItem_removeItem. split; reflexivity.
Qed.

Lemma reload_round_trip_witness :
  username (init (snd (joinChat
    {| messages := []; inputMessage := ""; username := " Al ";
       hasJoined := false; connectionStatus := Disconnected; sock := None |}
    []))) = "Al".
Proof.
  apply (reload_round_trip
           {| messages := []; inputMessage := ""; username := " Al ";
              hasJoined := false; connectionStatus := Disconnected;
              sock := None |} []).
  vm_compute. discriminate.
Defined.

(** The connection effect does nothing before a join; after one, the
    session is connecting and cannot send until the socket opens, after
    which it is connected and sends any non-blank input. *)
Theorem connect_lifecycle s now :
  (hasJoined s = false -> connect_effect s = s) /\
  (hasJoined s = true ->
     connectionStatus (connect_effect s) = Connecting /\
     snd (sendMessage (connect_effect s) now) = [] /\
     connectionStatus (on_open (connect_effect s)) = Connected /\
     snd (sendMessage (on_open (connect_effect s)) now) =
       (if String.eqb (trim (inputMessage s)) "" then []
        else [VObj [("type", VStr "message"); ("user", VStr (username s));
                    ("message", VStr (trim (inputMessage s)));
                    ("timestamp", VStr now)]])).
Proof.
  unfold connect_effect. split; intros H; rewrite H; [reflexivity|].
  unfold sendMessage. simpl.
  destruct (String.eqb (trim (inputMessage s)) ""); repeat split; reflexivity.
Qed.

Lemma connect_lifecycle_witness :
  snd (sendMessage (on_open (connect_effect (alice_joined " hi "))) "T") =
    [VObj [("type", VStr "message"); ("user", VStr "Alice");
           ("message", VStr "hi"); ("timestamp", VStr "T")]].
Proof.
  apply (proj2 (connect_lifecycle (alice_joined " hi ") "T") eq_refl).
Defined.

(** End to end: a message sent by session A and relayed reaches session B
    as one new record with A's name, the trimmed text, the relay's time and
    [isMine] true exactly when B's name is A's. *)
Theorem end_to_end_delivery sA sB ready clients nowA nowR v c p :
  username sA <> "" ->
  In v (snd (sendMessage sA nowA)) ->
  In (c, p) (Server.on_message ready clients nowR (Some v)) ->
  messages (on_message sB (Some p)) = messages sB ++
    [VObj [("type", VStr "message"); ("user", VStr (username sA));
           ("message", VStr (trim (inputMessage sA)));
           ("timestamp", VStr nowR);
           ("isMine", VBool (String.eqb (username sA) (username sB)))]].
Proof.
  intros Hu Hv Hin. unfold sendMessage in Hv.
  destruct (String.eqb (trim (inputMessage sA)) "") eqn:Et; [destruct Hv|].
  destruct (sock sA) as [[]|]; simpl in Hv; try contradiction.
  destruct Hv as [<-|[]].
  apply ServerFacts.in_on_message_obj in Hin as [_ [_ ->]].
  apply String.eqb_neq in Hu.
  unfold on_message, append, spread_isMine, getv, get. simpl.
  rewrite Hu, Et. simpl. reflexivity.
Qed.

Lemma end_to_end_delivery_witness :
  messages (on_message (alice_joined "") (Some
    (VObj [("type", VStr "message"); ("user", VStr "Bob");
           ("message", VStr "hi"); ("timestamp", VStr "R")]))) =
  [VObj [("type", VStr "message"); ("user", VStr "Bob");
         ("message", VStr "hi"); ("timestamp", VStr "R");
         ("isMine", VBool false)]].
Proof.
  apply (end_to_end_delivery
           {| messages := []; inputMessage := "hi"; username := "Bob";
              hasJoined := true; connectionStatus := Connected;
              sock := Some OPEN |}
           (alice_joined "") (fun _ => OPEN) [0%nat] "A" "R"
           (VObj [("type", VStr "message"); ("user", VStr "Bob");
                  ("message", VStr "hi"); ("timestamp", VStr "A")]) 0%nat).
  - discriminate.
  - left. reflexivity.
  - left. reflexivity.
Defined.

End ClientExtras.
